(** * GBDX workflow client ([gbdxtools/workflow.py])

    A shallow embedding of the [Workflow] class: every method is one
    synchronous HTTP round trip through the authenticated session, followed
    by a status check (where the method has one) and a field extraction
    from the parsed JSON body.

    The session, the JSON parser, the logger and standard output are
    collaborators of the class.  They are modelled as follows:
    - the session is a pair of functions from a request to either a
      response or a raised exception;
    - a response carries its status code, its text and the outcome of
      parsing that text as JSON;
    - [logger.debug], [print] and the calls made on the session are
      recorded, in order, in a trace. *)

From Stdlib Require Import ZArith List String Ascii Bool Lia.
From Stdlib Require Import DecimalString.
Import ListNotations.
Open Scope string_scope.
Open Scope Z_scope.

(** ** Python values that travel through the client

    [json.loads] and [Response.json] produce dicts (insertion ordered,
    string keys), lists, strings, integers, booleans and [None] (here
    [JNull], which is also what a method returns when it ends without a
    [return]). *)

#[warnings="-register-all"]
Inductive json : Type :=
| JNull
| JBool (b : bool)
| JNum (n : Z)
| JStr (s : string)
| JArr (items : list json)
| JObj (fields : list (string * json)).

(** ** Exceptions *)

Inductive exn : Type :=
| HTTPError (status_code : Z)
| TypeError (msg : string)
| KeyError (key : string)
| IndexError
| ValueError
| AttributeError (attr : string)
| ConnectionError.

Inductive result (A : Type) : Type :=
| Ok (a : A)
| Raise (e : exn).
Arguments Ok {A} a.
Arguments Raise {A} e.

(** ** Dicts and lists *)

Fixpoint dict_get (d : list (string * json)) (k : string) : option json :=
  match d with
  | [] => None
  | (k', v) :: d' => if String.eqb k' k then Some v else dict_get d' k
  end.

(** [d[k] = v]: an existing key keeps its position, a new key goes last. *)
Fixpoint dict_set (d : list (string * json)) (k : string) (v : json)
  : list (string * json) :=
  match d with
  | [] => [(k, v)]
  | (k', v') :: d' =>
      if String.eqb k' k then (k', v) :: d' else (k', v') :: dict_set d' k v
  end.

(** A JSON object literal as [json.loads] reads it: members are stored from
    left to right, so a repeated member name keeps its first position and
    its last value. *)
Definition obj (members : list (string * json)) : json :=
  JObj (fold_left (fun d kv => dict_set d (fst kv) (snd kv)) members []).

(** Python's index normalisation for a sequence of length [len]. *)
Definition norm_index (len i : Z) : option nat :=
  let j := if i <? 0 then i + len else i in
  if (0 <=? j) && (j <? len) then Some (Z.to_nat j) else None.

Fixpoint list_set {A} (l : list A) (n : nat) (x : A) : list A :=
  match l, n with
  | [], _ => []
  | _ :: l', O => x :: l'
  | y :: l', S n' => y :: list_set l' n' x
  end.

Definition type_name (j : json) : string :=
  match j with
  | JNull => "NoneType"
  | JBool _ => "bool"
  | JNum _ => "int"
  | JStr _ => "str"
  | JArr _ => "list"
  | JObj _ => "dict"
  end.

(** [j[k]] for a string subscript. *)
Definition getitem (j : json) (k : string) : result json :=
  match j with
  | JObj d =>
      match dict_get d k with
      | Some v => Ok v
      | None => Raise (KeyError k)
      end
  | JArr _ => Raise (TypeError "list indices must be integers or slices, not str")
  | JStr _ => Raise (TypeError "string indices must be integers")
  | _ => Raise (TypeError ("'" ++ type_name j ++ "' object is not subscriptable"))
  end.

(** [j[i]] for an integer subscript. *)
Definition getindex (j : json) (i : Z) : result json :=
  match j with
  | JArr l =>
      match norm_index (Z.of_nat (List.length l)) i with
      | Some n =>
          match nth_error l n with
          | Some v => Ok v
          | None => Raise IndexError
          end
      | None => Raise IndexError
      end
  | JStr s =>
      match norm_index (Z.of_nat (String.length s)) i with
      | Some n =>
          match String.get n s with
          | Some c => Ok (JStr (String c EmptyString))
          | None => Raise IndexError
          end
      | None => Raise IndexError
      end
  | JObj _ => Raise (KeyError (NilZero.string_of_int (Z.to_int i)))
  | _ => Raise (TypeError ("'" ++ type_name j ++ "' object is not subscriptable"))
  end.

(** [j[k] = v] for a string subscript. *)
Definition setitem (j : json) (k : string) (v : json) : result json :=
  match j with
  | JObj d => Ok (JObj (dict_set d k v))
  | JArr _ => Raise (TypeError "list indices must be integers or slices, not str")
  | _ => Raise (TypeError ("'" ++ type_name j ++ "' object does not support item assignment"))
  end.

(** One subscript of a path such as [['tasks'][0]['inputs'][1]]. *)
Inductive subscript : Type :=
| Key (k : string)
| Idx (i : Z).

Definition subscr (j : json) (s : subscript) : result json :=
  match s with
  | Key k => getitem j k
  | Idx i => getindex j i
  end.

(** Python mutates the object reached by the path in place; every holder
    of the outer object sees the change.  Functionally: the child found
    under a subscript is put back, changed, where it was found. *)
Definition put_back (j : json) (s : subscript) (child : json) : json :=
  match j, s with
  | JObj d, Key k => JObj (dict_set d k child)
  | JArr l, Idx i =>
      match norm_index (Z.of_nat (List.length l)) i with
      | Some n => JArr (list_set l n child)
      | None => j
      end
  | _, _ => j
  end.

(** [j path[0] ... path[n-1] [k] = v]. *)
Fixpoint assign (j : json) (path : list subscript) (k : string) (v : json)
  : result json :=
  match path with
  | [] => setitem j k v
  | s :: path' =>
      match subscr j s with
      | Ok child =>
          match assign child path' k v with
          | Ok child' => Ok (put_back j s child')
          | Raise e => Raise e
          end
      | Raise e => Raise e
      end
  end.

(** ** Strings *)

(** [sep.join(parts)] *)
Definition join (sep : string) (parts : list string) : string :=
  String.concat sep parts.

(** [str(n)] for an integer, as [%s] and [format] render it. *)
Definition str_of_int (n : Z) : string := NilZero.string_of_int (Z.to_int n).

(** The value of ["..." + v] or of a member of [join]: [v] must be a str. *)
Definition as_str (v : json) : result string :=
  match v with
  | JStr s => Ok s
  | _ => Raise (TypeError ("expected str instance, " ++ type_name v ++ " found"))
  end.

(** ** The interpreter's flavour

    The module is written for both Python lines ([from __future__ import
    print_function], [from builtins import object]).  They differ, for this
    class, in one place: [BaseException.message] exists on Python 2 only. *)

Inductive python : Type := Python2 | Python3.

(** [e.message] for a [TypeError] raised with the single argument [msg]. *)
Definition message (py : python) (msg : string) : result string :=
  match py with
  | Python2 => Ok msg
  | Python3 => Raise (AttributeError "message")
  end.

(** ** The transport *)

Record response : Type := mkResponse {
  status_code : Z;
  text : string;
  (** the outcome of parsing [text] as JSON; [None] when it is not JSON *)
  parsed : option json
}.

Inductive method : Type := GET | POST.

(** What accompanies a request: nothing, [data=...] or [json=...]. *)
Inductive payload : Type :=
| NoBody
| Data (d : string)
| Json (j : json).

Record session : Type := mkSession {
  session_get : string -> result response;
  session_post : string -> payload -> result response
}.

(** [Response.raise_for_status] of the requests library: client errors
    (4xx) and server errors (5xx) raise [HTTPError], nothing else does. *)
Definition is_error_status (code : Z) : bool :=
  (400 <=? code) && (code <? 600).

Definition raise_for_status (r : response) : result unit :=
  if is_error_status (status_code r)
  then Raise (HTTPError (status_code r))
  else Ok tt.

(** [Response.json]: a body that is not JSON raises a [ValueError]. *)
Definition response_json (r : response) : result json :=
  match parsed r with
  | Some j => Ok j
  | None => Raise ValueError
  end.

(** ** Effects: a trace of what the client did, and a result *)

Inductive event : Type :=
| LogDebug (msg : string)
| Stdout (line : string)
| Request (m : method) (url : string) (body : payload).

Definition M (A : Type) : Type := (list event * result A)%type.

Definition ret {A} (a : A) : M A := ([], Ok a).

Definition lift {A} (r : result A) : M A := ([], r).

Definition emit (ev : event) : M unit := ([ev], Ok tt).

Definition bind {A B} (m : M A) (f : A -> M B) : M B :=
  match m with
  | (t, Ok a) => let (t', r) := f a in ((t ++ t')%list, r)
  | (t, Raise e) => (t, Raise e)
  end.

(** [try: body except ...: handler]; [handler e = None] when no clause
    matches [e], which then propagates. *)
Definition try_except {A} (body : M A) (handler : exn -> option (M A)) : M A :=
  match body with
  | (t, Raise e) =>
      match handler e with
      | Some h => let (t', r) := h in ((t ++ t')%list, r)
      | None => (t, Raise e)
      end
  | (t, Ok a) => (t, Ok a)
  end.

Declare Scope py_scope.
Delimit Scope py_scope with py.
Notation "x <- c1 ;; c2" := (bind c1 (fun x => c2))
  (at level 61, c1 at next level, right associativity) : py_scope.
Notation "c1 ;; c2" := (bind c1 (fun _ => c2))
  (at level 61, right associativity) : py_scope.
Open Scope py_scope.

Definition trace {A} (m : M A) : list event := fst m.
Definition outcome {A} (m : M A) : result A := snd m.

(** ** Class [Workflow] *)

Section Workflow.

(** The fields [__init__] stores: [self.gbdx_connection] and the [info]
    dict of [self.s3]; [py] is the interpreter running the module.
    [self.logger] is the [LogDebug] part of the trace. *)
Variable py : python.
Variable gbdx_connection : session.
Variable s3_info : json.

Definition debug (msg : string) : M unit := emit (LogDebug msg).
Definition print (line : string) : M unit := emit (Stdout line).

(** [self.gbdx_connection.get(url)] *)
Definition get (url : string) : M response :=
  emit (Request GET url NoBody);;
  lift (session_get gbdx_connection url).

(** [self.gbdx_connection.post(url, ...)] *)
Definition post (url : string) (body : payload) : M response :=
  emit (Request POST url body);;
  lift (session_post gbdx_connection url body).

Definition workflows_url : string :=
  "https://geobigdata.io/workflows/v1/workflows".

Definition launch (workflow : json) : M json :=
  let url := workflows_url in
  try_except
    (r <- post url (Json workflow);;
     try_except (lift (raise_for_status r))
       (fun _ => Some
          (print ("GBDX API Status Code: " ++ str_of_int (status_code r));;
           print ("GBDX API Response: " ++ text r);;
           lift (raise_for_status r)));;
     j <- lift (response_json r);;
     workflow_id <- lift (getitem j "id");;
     ret workflow_id)
    (fun e =>
       match e with
       | TypeError _ => Some (debug "Workflow not launched!";; ret JNull)
       | _ => None
       end).

Definition status (workflow_id : string) : M json :=
  debug ("Get status of workflow: " ++ workflow_id);;
  let url := "https://geobigdata.io/workflows/v1/workflows/" ++ workflow_id in
  r <- get url;;
  j <- lift (response_json r);;
  lift (getitem j "state").

Definition events (workflow_id : string) : M json :=
  debug ("Get events of workflow: " ++ workflow_id);;
  let url := "https://geobigdata.io/workflows/v1/workflows/" ++ workflow_id
             ++ "/events" in
  r <- get url;;
  j <- lift (response_json r);;
  lift (getitem j "Events").

Definition cancel (workflow_id : string) : M unit :=
  debug ("Canceling workflow: " ++ workflow_id);;
  let url := "https://geobigdata.io/workflows/v1/workflows/" ++ workflow_id
             ++ "/cancel" in
  r <- post url (Data EmptyString);;
  lift (raise_for_status r).

Definition list_tasks : M json :=
  let url := "https://geobigdata.io/workflows/v1/tasks" in
  r <- get url;;
  lift (raise_for_status r);;
  lift (response_json r).

Definition describe_task (task_name : string) : M json :=
  let url := "https://geobigdata.io/workflows/v1/tasks/" ++ task_name in
  r <- get url;;
  lift (raise_for_status r);;
  lift (response_json r).

Definition launch_batch_workflow (batch_workflow : json) : M json :=
  let url := "https://geobigdata.io/workflows/v1/batch_workflows" in
  try_except
    (r <- post url (Json batch_workflow);;
     j <- lift (response_json r);;
     batch_workflow_id <- lift (getitem j "batch_workflow_id");;
     ret batch_workflow_id)
    (fun e =>
       match e with
       | TypeError msg =>
           Some (reason <- lift (message py msg);;
                 debug ("Batch Workflow not launched, reason: " ++ reason);;
                 ret JNull)
       | _ => None
       end).

Definition batch_workflow_status (batch_workflow_id : string) : M json :=
  debug ("Get status of batch workflow: " ++ batch_workflow_id);;
  let url := "https://geobigdata.io/workflows/v1/batch_workflows/"
             ++ batch_workflow_id in
  r <- get url;;
  lift (response_json r).

Definition batch_workflow_cancel (batch_workflow_id : string) : M json :=
  debug ("Cancel batch workflow: " ++ batch_workflow_id);;
  let url := "https://geobigdata.io/workflows/v1/batch_workflows/"
             ++ batch_workflow_id ++ "/cancel" in
  r <- post url NoBody;;
  lift (response_json r).

(** The workflow dictionary [launch_aop_to_s3] starts from, member by
    member as the JSON text has it (the first task names
    [containerDescriptors] twice). *)
Definition raid : json :=
  JArr [obj [("properties", obj [("domain", JStr "raid")])]].

Definition aop_to_s3_template : json :=
  obj [("tasks", JArr [
         obj [("containerDescriptors", raid);
              ("name", JStr "AOP");
              ("inputs", JArr [
                 obj [("name", JStr "data"); ("value", JStr "INPUT_BUCKET")];
                 obj [("name", JStr "bands"); ("value", JStr "Auto")];
                 obj [("name", JStr "enable_acomp"); ("value", JStr "false")];
                 obj [("name", JStr "enable_dra"); ("value", JStr "false")];
                 obj [("name", JStr "ortho_epsg"); ("value", JStr "EPSG:4326")];
                 obj [("name", JStr "enable_pansharpen"); ("value", JStr "false")]]);
              ("outputs", JArr [obj [("name", JStr "data")];
                                obj [("name", JStr "log")]]);
              ("timeout", JNum 36000);
              ("taskType", JStr "AOP_Strip_Processor");
              ("containerDescriptors", raid)];
         obj [("inputs", JArr [
                 obj [("source", JStr "AOP:data"); ("name", JStr "data")];
                 obj [("name", JStr "destination"); ("value", JStr "OUTPUT_BUCKET")]]);
              ("name", JStr "StageToS3");
              ("taskType", JStr "StageDataToS3");
              ("containerDescriptors", raid)]]);
       ("name", JStr "aop_to_s3")].

(** [aop_to_s3['tasks'][t]['inputs'][i]['value'] = v] *)
Definition set_input_value (w : json) (t i : Z) (v : json) : M json :=
  lift (assign w [Key "tasks"; Idx t; Key "inputs"; Idx i] "value" v).

Definition launch_aop_to_s3
    (input_location output_location : string)
    (bands ortho_epsg enable_pansharpen enable_acomp enable_dra : string)
  : M json :=
  let aop_to_s3 := aop_to_s3_template in
  aop_to_s3 <- set_input_value aop_to_s3 0 0 (JStr input_location);;
  aop_to_s3 <- set_input_value aop_to_s3 0 1 (JStr bands);;
  aop_to_s3 <- set_input_value aop_to_s3 0 2 (JStr enable_acomp);;
  aop_to_s3 <- set_input_value aop_to_s3 0 3 (JStr enable_dra);;
  aop_to_s3 <- set_input_value aop_to_s3 0 4 (JStr ortho_epsg);;
  aop_to_s3 <- set_input_value aop_to_s3 0 5 (JStr enable_pansharpen);;
  bucket <- lift (getitem s3_info "bucket");;
  prefix <- lift (getitem s3_info "prefix");;
  bucket_s <- lift (as_str bucket);;
  prefix_s <- lift (as_str prefix);;
  let output_location_final :=
    "s3://" ++ join "/" [bucket_s; prefix_s; output_location] in
  aop_to_s3 <- set_input_value aop_to_s3 1 1 (JStr output_location_final);;
  debug "Launch workflow";;
  workflow_id <- launch aop_to_s3;;
  ret workflow_id.

(** The keyword defaults of [launch_aop_to_s3]. *)
Definition launch_aop_to_s3_defaults (input_location output_location : string)
  : M json :=
  launch_aop_to_s3 input_location output_location
    "Auto" "EPSG:4326" "false" "false" "false".

End Workflow.

(** * Observations used by the properties *)

(** A mocked transport: every request is answered with [r]. *)
Definition mock (r : response) : session :=
  mkSession (fun _ => Ok r) (fun _ _ => Ok r).

(** The success class of HTTP, 200 to 299. *)
Definition is_2xx (code : Z) : bool := (200 <=? code) && (code <? 300).

Definition raises_HTTPError {A} (r : result A) : bool :=
  match r with
  | Raise (HTTPError _) => true
  | _ => false
  end.

Definition raised {A} (r : result A) : bool :=
  match r with
  | Raise _ => true
  | Ok _ => false
  end.

(** What a trace printed on standard output. *)
Definition printed (t : list event) : list string :=
  flat_map (fun ev => match ev with Stdout l => [l] | _ => [] end) t.

(** The workflow payloads a trace submitted, with the URL they went to. *)
Definition posted (t : list event) : list (string * json) :=
  flat_map (fun ev => match ev with
                      | Request POST url (Json j) => [(url, j)]
                      | _ => []
                      end) t.

(** Reading a workflow definition: its tasks, a task's name and inputs,
    the value of the input with a given name, the [source] references. *)
Definition field (j : json) (k : string) : option json :=
  match j with
  | JObj d => dict_get d k
  | _ => None
  end.

Definition elements (j : option json) : list json :=
  match j with
  | Some (JArr l) => l
  | _ => []
  end.

Definition tasks (w : json) : list json := elements (field w "tasks").

Definition inputs (task : json) : list json := elements (field task "inputs").

Definition has_name (name : string) (j : json) : bool :=
  match field j "name" with
  | Some (JStr n) => String.eqb n name
  | _ => false
  end.

Definition input_value (task : option json) (name : string) : option json :=
  match task with
  | Some t =>
      match find (has_name name) (inputs t) with
      | Some i => field i "value"
      | None => None
      end
  | None => None
  end.

Definition sources (task : json) : list string :=
  flat_map (fun i => match field i "source" with
                     | Some (JStr s) => [s]
                     | _ => []
                     end) (inputs task).

(** The task a reference such as [AOP:data] points at: what precedes the
    colon. *)
Fixpoint producer (source : string) : string :=
  match source with
  | EmptyString => EmptyString
  | String c rest =>
      if Ascii.eqb c ":" then EmptyString else String c (producer rest)
  end.

(** Producer before consumer: every [source] of the task at position [i]
    names a task at a position before [i]. *)
Definition producer_before_consumer (w : json) : Prop :=
  forall (i : nat) (t : json) (s : string),
    nth_error (tasks w) i = Some t ->
    In s (sources t) ->
    exists (k : nat) (p : json),
      (k < i)%nat /\ nth_error (tasks w) k = Some p /\
      field p "name" = Some (JStr (producer s)).

(** ** Concrete inputs *)

(** The JSON text of a string that needs no escape, and of the object
    whose only member is [id], with value [w1]. *)
Definition quoted (s : string) : string :=
  let dq := String (Ascii.ascii_of_nat 34) EmptyString in dq ++ s ++ dq.

Definition id_w1_text : string := "{" ++ quoted "id" ++ ": " ++ quoted "w1" ++ "}".

(** An S3 information dict with the keys [test_get_s3_creds] looks for. *)
Definition example_info : json :=
  obj [("bucket", JStr "gbd-customer-data");
       ("prefix", JStr "58600248-2927-4523-b44b-5fec3d278c09");
       ("S3_secret_key", JStr "secret");
       ("S3_access_key", JStr "access");
       ("S3_session_token", JStr "token")].

(** ** Further observations *)

(** A transport that is down: every call on the session raises [e]. *)
Definition failing (e : exn) : session :=
  mkSession (fun _ => Raise e) (fun _ _ => Raise e).

Definition is_TypeError (e : exn) : bool :=
  match e with
  | TypeError _ => true
  | _ => false
  end.

Definition raises_TypeError {A} (r : result A) : bool :=
  match r with
  | Raise e => is_TypeError e
  | Ok _ => false
  end.

Definition is_str (j : json) : bool :=
  match j with
  | JStr _ => true
  | _ => false
  end.

(** The calls a trace made on the session. *)
Definition requests (t : list event) : list (method * string * payload) :=
  flat_map (fun ev => match ev with
                      | Request m url body => [(m, url, body)]
                      | _ => []
                      end) t.

(** The response [r] under another status code. *)
Definition with_status (r : response) (code : Z) : response :=
  mkResponse code (text r) (parsed r).

(** A workflow definition with the [value] of every task input blanked:
    what is left is its shape (tasks, names, types, inputs, sources,
    outputs, descriptors). *)
Definition on_member (k : string) (f : json -> json) (j : json) : json :=
  match j with
  | JObj d =>
      JObj (map (fun kv => if String.eqb (fst kv) k
                           then (fst kv, f (snd kv)) else kv) d)
  | _ => j
  end.

Definition on_elements (f : json -> json) (j : json) : json :=
  match j with
  | JArr l => JArr (map f l)
  | _ => j
  end.

Definition erase_values (w : json) : json :=
  on_member "tasks"
    (on_elements
       (on_member "inputs"
          (on_elements (on_member "value" (fun _ => JNull))))) w.

(** * Properties *)

(** ** Shared facts *)

Lemma is_2xx_not_error (c : Z) : is_2xx c = true -> is_error_status c = false.
Proof.
  unfold is_2xx, is_error_status. intros H.
  apply andb_true_iff in H as [_ H]. apply Z.ltb_lt in H.
  apply andb_false_iff. left. apply Z.leb_gt. lia.
Qed.

Lemma raise_for_status_ok (r : response) :
  is_error_status (status_code r) = false -> raise_for_status r = Ok tt.
Proof. unfold raise_for_status. now intros ->. Qed.

Lemma raise_for_status_error (r : response) :
  is_error_status (status_code r) = true ->
  raise_for_status r = Raise (HTTPError (status_code r)).
Proof. unfold raise_for_status. now intros ->. Qed.

Ltac run f :=
  unfold f, get, post, debug, print, bind, try_except, emit, lift, ret.

(** ** [status] *)

(** C1.  [status] has no status check: whatever the mocked transport
    answers, it never fails with the HTTP error of the response.  On
    status 500 with body [server error] the failure is the JSON parser's
    [ValueError] (a [TypeError] from the subscript when the body is the
    JSON string), and a 500 whose body holds a [state] returns it. *)
Theorem status_has_no_status_check :
  (forall r h, raises_HTTPError (outcome (status (mock r) h)) = false) /\
  (forall h, outcome (status (mock (mkResponse 500 "server error" None)) h)
             = Raise ValueError) /\
  (forall h, outcome (status (mock (mkResponse 500 "server error"
                                      (Some (JStr "server error")))) h)
             = Raise (TypeError "string indices must be integers")) /\
  (forall h, outcome (status (mock (mkResponse 500 "server error"
                                      (Some (obj [("state", JStr "running")])))) h)
             = Ok (JStr "running")).
Proof.
  repeat split; intros; try reflexivity.
  run status. cbn.
  unfold response_json. destruct (parsed r) as [j|]; [|reflexivity].
  destruct j; cbn; try reflexivity.
  destruct (dict_get fields "state"); reflexivity.
Qed.

(** ** [launch] *)

Lemma launch_posted (conn : session) (w : json) :
  posted (trace (launch conn w)) = [(workflows_url, w)].
Proof.
  run launch.
  destruct (session_post conn workflows_url (Json w)) as [r|e]; cbn.
  - unfold raise_for_status.
    destruct (is_error_status (status_code r)); cbn; [reflexivity|].
    destruct (response_json r) as [j|e]; cbn.
    + destruct (getitem j "id") as [v|e]; cbn; [reflexivity|].
      destruct e; reflexivity.
    + destruct e; reflexivity.
  - destruct e; reflexivity.
Qed.

(** C3 as stated fails on a response that is neither a success nor an
    HTTP error: on 304 nothing is printed and the call returns the [id]. *)
Lemma launch_304_returns_id :
  let r := mkResponse 304 id_w1_text (Some (obj [("id", JStr "w1")])) in
  (is_2xx (status_code r) = false /\
   launch (mock r) (obj []) =
     ([Request POST workflows_url (Json (obj []))], Ok (JStr "w1"))) /\
  ~ (forall conn w r,
        session_post conn workflows_url (Json w) = Ok r ->
        is_2xx (status_code r) = false ->
        printed (trace (launch conn w))
          = ["GBDX API Status Code: " ++ str_of_int (status_code r);
             "GBDX API Response: " ++ text r] /\
        outcome (launch conn w) = Raise (HTTPError (status_code r))).
Proof.
  split; [split; reflexivity|].
  intros H.
  destruct (H (mock (mkResponse 304 id_w1_text (Some (obj [("id", JStr "w1")]))))
              (obj []) _ eq_refl eq_refl) as [_ Hout].
  discriminate Hout.
Qed.

(** C3, amended.  When the transport answers the submission: on a status
    outside 400..599 (every 2xx is one) whose JSON body has an [id],
    [launch] returns that [id] and prints nothing; on a status in 400..599
    it prints the status code, then the body, and raises the HTTP error of
    that status. *)
Theorem launch_response_handling (conn : session) (w : json) (r : response) :
  session_post conn workflows_url (Json w) = Ok r ->
  (forall j id,
      is_2xx (status_code r) = true ->
      parsed r = Some j -> getitem j "id" = Ok id ->
      launch conn w = ([Request POST workflows_url (Json w)], Ok id)) /\
  (forall j id,
      is_error_status (status_code r) = false ->
      parsed r = Some j -> getitem j "id" = Ok id ->
      launch conn w = ([Request POST workflows_url (Json w)], Ok id)) /\
  (is_error_status (status_code r) = true ->
   launch conn w =
     ([Request POST workflows_url (Json w);
       Stdout ("GBDX API Status Code: " ++ str_of_int (status_code r));
       Stdout ("GBDX API Response: " ++ text r)],
      Raise (HTTPError (status_code r)))).
Proof.
  intros Hpost.
  assert (Hok : forall j id,
             is_error_status (status_code r) = false ->
             parsed r = Some j -> getitem j "id" = Ok id ->
             launch conn w = ([Request POST workflows_url (Json w)], Ok id)).
  { intros j id Hs Hj Hid. run launch. rewrite Hpost.
    rewrite (raise_for_status_ok r Hs). unfold response_json. rewrite Hj.
    rewrite Hid. reflexivity. }
  split; [|split].
  - intros j id Hs. apply Hok. now apply is_2xx_not_error.
  - exact Hok.
  - intros Hs. run launch. rewrite Hpost.
    rewrite (raise_for_status_error r Hs). reflexivity.
Qed.

Lemma launch_response_handling_witness :
  launch (mock (mkResponse 200 id_w1_text (Some (obj [("id", JStr "w1")])))) (obj [])
    = ([Request POST workflows_url (Json (obj []))], Ok (JStr "w1")) /\
  launch (mock (mkResponse 500 "server error" None)) (obj [])
    = ([Request POST workflows_url (Json (obj []));
        Stdout "GBDX API Status Code: 500";
        Stdout "GBDX API Response: server error"],
       Raise (HTTPError 500)).
Proof.
  split.
  - apply (proj1 (launch_response_handling
                    (mock (mkResponse 200 id_w1_text (Some (obj [("id", JStr "w1")]))))
                    (obj []) _ eq_refl)
             (obj [("id", JStr "w1")]) (JStr "w1")); reflexivity.
  - apply (proj2 (proj2 (launch_response_handling
                           (mock (mkResponse 500 "server error" None))
                           (obj []) _ eq_refl))); reflexivity.
Defined.

(** C6.  When the session's [post] raises a [TypeError], [launch] swallows
    it: the only diagnostic is the debug message, nothing is printed and
    the call returns [None]. *)
Theorem launch_swallows_TypeError (conn : session) (w : json) (msg : string) :
  session_post conn workflows_url (Json w) = Raise (TypeError msg) ->
  launch conn w =
    ([Request POST workflows_url (Json w); LogDebug "Workflow not launched!"],
     Ok JNull).
Proof. intros H. run launch. rewrite H. reflexivity. Qed.

Lemma launch_swallows_TypeError_witness :
  let conn := mkSession (fun _ => Raise ConnectionError)
                (fun _ _ => Raise (TypeError "Object of type set is not JSON serializable")) in
  session_post conn workflows_url (Json JNull)
    = Raise (TypeError "Object of type set is not JSON serializable") /\
  launch conn JNull =
    ([Request POST workflows_url (Json JNull); LogDebug "Workflow not launched!"],
     Ok JNull).
Proof.
  split; [reflexivity|].
  apply (launch_swallows_TypeError _ JNull
           "Object of type set is not JSON serializable"). reflexivity.
Defined.

(** ** [events] *)

(** C5.  When the JSON body of the answer is an object with an [Events]
    member, [events] returns the value of that member as it is. *)
Theorem events_verbatim (conn : session) (h : string) (r : response)
    (d : list (string * json)) (evs : json) :
  session_get conn ("https://geobigdata.io/workflows/v1/workflows/" ++ h
                    ++ "/events") = Ok r ->
  parsed r = Some (JObj d) ->
  dict_get d "Events" = Some evs ->
  outcome (events conn h) = Ok evs.
Proof.
  intros Hget Hj Hev. run events. rewrite Hget.
  unfold response_json. rewrite Hj. cbn. rewrite Hev. reflexivity.
Qed.

Lemma events_verbatim_witness :
  let body := [("Events", JArr [JObj [("type", JStr "submitted")]])] in
  let r := mkResponse 200
             ("{" ++ quoted "Events" ++ ": [{" ++ quoted "type" ++ ":"
              ++ quoted "submitted" ++ "}]}")
             (Some (JObj body)) in
  dict_get body "Events" = Some (JArr [JObj [("type", JStr "submitted")]]) /\
  outcome (events (mock r) "4488969848362445219")
    = Ok (JArr [JObj [("type", JStr "submitted")]]).
Proof.
  split; [reflexivity|].
  apply (events_verbatim
           (mock (mkResponse 200
                    ("{" ++ quoted "Events" ++ ": [{" ++ quoted "type" ++ ":"
                     ++ quoted "submitted" ++ "}]}")
                    (Some (JObj [("Events", JArr [JObj [("type", JStr "submitted")]])]))))
           "4488969848362445219" _ _ _ eq_refl eq_refl eq_refl).
Defined.

(** ** [cancel] *)

(** C4 as stated fails on a response that is neither a success nor an
    HTTP error: on 304 [cancel] returns without raising. *)
Lemma cancel_304_does_not_raise :
  let r := mkResponse 304 EmptyString None in
  (is_2xx (status_code r) = false /\
   cancel (mock r) "w1" =
    ([LogDebug "Canceling workflow: w1";
      Request POST "https://geobigdata.io/workflows/v1/workflows/w1/cancel"
        (Data EmptyString)],
     Ok tt)) /\
  ~ (forall conn h r,
        session_post conn ("https://geobigdata.io/workflows/v1/workflows/" ++ h
                           ++ "/cancel") (Data EmptyString) = Ok r ->
        raised (outcome (cancel conn h)) = true
        <-> is_2xx (status_code r) = false).
Proof.
  split; [split; reflexivity|].
  intros H.
  destruct (H (mock (mkResponse 304 EmptyString None)) "w1" _ eq_refl)
    as [_ Hraise].
  discriminate (Hraise eq_refl).
Qed.

(** C4, amended.  When the transport answers the cancellation, [cancel]
    raises if and only if the status is in 400..599, and what it raises is
    the HTTP error of that status; on every other status, every 2xx among
    them, it returns nothing. *)
Theorem cancel_raises_iff_error_status (conn : session) (h : string)
    (r : response) :
  session_post conn ("https://geobigdata.io/workflows/v1/workflows/" ++ h
                     ++ "/cancel") (Data EmptyString) = Ok r ->
  (raised (outcome (cancel conn h)) = is_error_status (status_code r)) /\
  (is_error_status (status_code r) = true ->
   outcome (cancel conn h) = Raise (HTTPError (status_code r))) /\
  (is_error_status (status_code r) = false -> outcome (cancel conn h) = Ok tt) /\
  (is_2xx (status_code r) = true -> outcome (cancel conn h) = Ok tt).
Proof.
  intros Hpost.
  assert (E : outcome (cancel conn h) = raise_for_status r).
  { run cancel. rewrite Hpost. cbn. now destruct (raise_for_status r). }
  rewrite E. unfold raise_for_status.
  repeat split.
  - now destruct (is_error_status (status_code r)).
  - now intros ->.
  - now intros ->.
  - intros H. now rewrite (is_2xx_not_error _ H).
Qed.

Lemma cancel_raises_iff_error_status_witness :
  outcome (cancel (mock (mkResponse 404 "not found" None)) "w1")
    = Raise (HTTPError 404) /\
  outcome (cancel (mock (mkResponse 200 EmptyString None)) "w1") = Ok tt.
Proof.
  split.
  - apply (proj1 (proj2 (cancel_raises_iff_error_status
                           (mock (mkResponse 404 "not found" None)) "w1" _ eq_refl)));
      reflexivity.
  - apply (proj2 (proj2 (proj2 (cancel_raises_iff_error_status
                           (mock (mkResponse 200 EmptyString None)) "w1" _ eq_refl))));
      reflexivity.
Defined.

(** ** [describe_task] *)

(** C8 as stated fails on a response that is neither a success nor an
    HTTP error: on 304 [describe_task] returns the body. *)
Lemma describe_task_304_returns_body :
  let r := mkResponse 304 "{}" (Some (obj [])) in
  (is_2xx (status_code r) = false /\
   outcome (describe_task (mock r) "AOP_Strip_Processor") = Ok (obj [])) /\
  ~ (forall conn name r,
        session_get conn ("https://geobigdata.io/workflows/v1/tasks/" ++ name)
          = Ok r ->
        is_2xx (status_code r) = false ->
        raised (outcome (describe_task conn name)) = true).
Proof.
  split; [split; reflexivity|].
  intros H.
  discriminate (H (mock (mkResponse 304 "{}" (Some (obj []))))
                  "AOP_Strip_Processor" _ eq_refl eq_refl).
Qed.

(** C8, amended.  When the transport answers the lookup: on a status in
    400..599 (404 for an unknown name) [describe_task] fails with the HTTP
    error of that status; on any other status, every 2xx among them, it
    returns the whole parsed JSON body. *)
Theorem describe_task_result (conn : session) (name : string) (r : response) :
  session_get conn ("https://geobigdata.io/workflows/v1/tasks/" ++ name) = Ok r ->
  (is_error_status (status_code r) = true ->
   outcome (describe_task conn name) = Raise (HTTPError (status_code r))) /\
  (forall j, is_error_status (status_code r) = false -> parsed r = Some j ->
             outcome (describe_task conn name) = Ok j) /\
  (forall j, is_2xx (status_code r) = true -> parsed r = Some j ->
             outcome (describe_task conn name) = Ok j).
Proof.
  intros Hget.
  assert (Hok : forall j, is_error_status (status_code r) = false ->
                          parsed r = Some j ->
                          outcome (describe_task conn name) = Ok j).
  { intros j Hs Hj. run describe_task. rewrite Hget.
    rewrite (raise_for_status_ok r Hs). unfold response_json. rewrite Hj.
    reflexivity. }
  repeat split.
  - intros Hs. run describe_task. rewrite Hget.
    rewrite (raise_for_status_error r Hs). reflexivity.
  - exact Hok.
  - intros j H. apply Hok. now apply is_2xx_not_error.
Qed.

Lemma describe_task_result_witness :
  outcome (describe_task (mock (mkResponse 404 "not found" None)) "NoSuchTask")
    = Raise (HTTPError 404) /\
  outcome (describe_task
             (mock (mkResponse 200 ("{" ++ quoted "name" ++ ": " ++ quoted "AOP_Strip_Processor" ++ "}") (Some (obj [("name", JStr "AOP_Strip_Processor")]))))
             "AOP_Strip_Processor")
    = Ok (obj [("name", JStr "AOP_Strip_Processor")]).
Proof.
  split.
  - apply (proj1 (describe_task_result
                    (mock (mkResponse 404 "not found" None)) "NoSuchTask" _ eq_refl));
      reflexivity.
  - apply (proj2 (proj2 (describe_task_result
                    (mock (mkResponse 200 ("{" ++ quoted "name" ++ ": " ++ quoted "AOP_Strip_Processor" ++ "}") (Some (obj [("name", JStr "AOP_Strip_Processor")]))))
                    "AOP_Strip_Processor" _ eq_refl))); reflexivity.
Defined.

(** ** [batch_workflow_cancel] *)

(** C7.  [batch_workflow_cancel] posts, without a body, to the [cancel]
    sub-resource of the batch and returns the parsed JSON body of the
    answer; the status code plays no part. *)
Theorem batch_workflow_cancel_unchecked (conn : session) (h : string)
    (r : response) (j : json) :
  session_post conn ("https://geobigdata.io/workflows/v1/batch_workflows/"
                     ++ h ++ "/cancel") NoBody = Ok r ->
  parsed r = Some j ->
  batch_workflow_cancel conn h =
    ([LogDebug ("Cancel batch workflow: " ++ h);
      Request POST ("https://geobigdata.io/workflows/v1/batch_workflows/"
                    ++ h ++ "/cancel") NoBody],
     Ok j).
Proof.
  intros Hpost Hj. run batch_workflow_cancel. rewrite Hpost.
  unfold response_json. rewrite Hj. reflexivity.
Qed.

Lemma batch_workflow_cancel_unchecked_witness :
  let r := mkResponse 500 ("{" ++ quoted "error" ++ ": " ++ quoted "boom" ++ "}")
             (Some (obj [("error", JStr "boom")])) in
  is_2xx (status_code r) = false /\
  batch_workflow_cancel (mock r) "b7" =
    ([LogDebug "Cancel batch workflow: b7";
      Request POST "https://geobigdata.io/workflows/v1/batch_workflows/b7/cancel"
        NoBody],
     Ok (obj [("error", JStr "boom")])).
Proof.
  split; [reflexivity|].
  apply (batch_workflow_cancel_unchecked
           (mock (mkResponse 500 ("{" ++ quoted "error" ++ ": " ++ quoted "boom" ++ "}")
                    (Some (obj [("error", JStr "boom")]))))
           "b7" _ _ eq_refl eq_refl).
Defined.

(** ** [launch_batch_workflow] *)

(** On Python 2 the handler does what it was written for. *)
Lemma launch_batch_workflow_py2 (conn : session) (w : json) (msg : string) :
  session_post conn "https://geobigdata.io/workflows/v1/batch_workflows" (Json w)
    = Raise (TypeError msg) ->
  launch_batch_workflow Python2 conn w =
    ([Request POST "https://geobigdata.io/workflows/v1/batch_workflows" (Json w);
      LogDebug ("Batch Workflow not launched, reason: " ++ msg)],
     Ok JNull).
Proof. intros H. run launch_batch_workflow. rewrite H. reflexivity. Qed.

(** C10.  On Python 3, when a [TypeError] is raised inside the [try] of
    [launch_batch_workflow] (by the session's [post], or by the subscript
    on a body that is not a dict), the handler fails on [e.message]: the
    call raises [AttributeError], logs nothing and returns nothing. *)
Theorem launch_batch_workflow_handler_fails (conn : session) (w : json) :
  (exists msg,
      session_post conn "https://geobigdata.io/workflows/v1/batch_workflows"
        (Json w) = Raise (TypeError msg)) \/
  (exists r j msg,
      session_post conn "https://geobigdata.io/workflows/v1/batch_workflows"
        (Json w) = Ok r /\
      parsed r = Some j /\
      getitem j "batch_workflow_id" = Raise (TypeError msg)) ->
  launch_batch_workflow Python3 conn w =
    ([Request POST "https://geobigdata.io/workflows/v1/batch_workflows" (Json w)],
     Raise (AttributeError "message")).
Proof.
  intros [[msg H] | (r & j & msg & H & Hj & Hid)];
    run launch_batch_workflow; rewrite H.
  - reflexivity.
  - unfold response_json. rewrite Hj. rewrite Hid. reflexivity.
Qed.

Lemma launch_batch_workflow_handler_fails_witness :
  let conn := mkSession (fun _ => Raise ConnectionError)
                (fun _ _ => Raise (TypeError "Object of type set is not JSON serializable")) in
  launch_batch_workflow Python3 conn JNull =
    ([Request POST "https://geobigdata.io/workflows/v1/batch_workflows" (Json JNull)],
     Raise (AttributeError "message")).
Proof.
  apply (launch_batch_workflow_handler_fails
           (mkSession (fun _ => Raise ConnectionError)
              (fun _ _ => Raise (TypeError "Object of type set is not JSON serializable")))
           JNull).
  left. exists "Object of type set is not JSON serializable". reflexivity.
Defined.

(** ** [launch_aop_to_s3] *)

Lemma posted_app (t u : list event) :
  posted (t ++ u) = (posted t ++ posted u)%list.
Proof. unfold posted. now rewrite flat_map_app. Qed.

Lemma bind_lift_Ok {A B} (a : A) (f : A -> M B) : bind (lift (Ok a)) f = f a.
Proof. unfold bind, lift. now destruct (f a). Qed.

Lemma trace_bind {A B} (m : M A) (f : A -> M B) :
  trace (bind m f) =
    (trace m ++ match outcome m with
                | Ok a => trace (f a)
                | Raise _ => []
                end)%list.
Proof.
  destruct m as [t [a|e]]; cbn.
  - now destruct (f a).
  - now rewrite app_nil_r.
Qed.

(** What follows the substitutions: the debug message, then [launch]. *)
Lemma posted_debug_launch (conn : session) (msg : string) (w : json) :
  posted (trace (debug msg;; workflow_id <- launch conn w;; ret workflow_id))
    = [(workflows_url, w)].
Proof.
  rewrite trace_bind. cbn [debug emit trace outcome fst snd].
  rewrite trace_bind, !posted_app, launch_posted.
  now destruct (outcome (launch conn w)).
Qed.

(** Runs the substitutions of [launch_aop_to_s3] one assignment at a time
    and hands the dictionary they build to [posted_debug_launch]. *)
Ltac substitute_then_launch Hb Hp :=
  unfold launch_aop_to_s3_defaults, launch_aop_to_s3, set_input_value;
  rewrite Hb, Hp;
  repeat (try match goal with
              | |- context [assign ?j ?p ?k ?v] =>
                  let r := eval vm_compute in (assign j p k v) in
                  change (assign j p k v) with r
              | |- context [as_str (JStr ?s)] =>
                  change (as_str (JStr s)) with (Ok (A:=string) s)
              end;
          rewrite bind_lift_Ok; cbv beta zeta);
  apply posted_debug_launch.

(** C2.  With a bucket and a prefix in the S3 information, the call
    [launch_aop_to_s3("s3://in/path", "out/prefix")] with the keyword
    defaults submits one payload: its first task has the inputs [bands],
    [enable_acomp], [enable_dra], [ortho_epsg], [enable_pansharpen] set to
    [Auto], [false], [false], [EPSG:4326], [false] and its [data] input
    set to the input location; the [destination] input of its second
    task is [s3://bucket/prefix/out/prefix]. *)
Theorem launch_aop_to_s3_default_payload (conn : session) (info : json)
    (bucket prefix : string) :
  getitem info "bucket" = Ok (JStr bucket) ->
  getitem info "prefix" = Ok (JStr prefix) ->
  exists w,
    posted (trace (launch_aop_to_s3_defaults conn info "s3://in/path" "out/prefix"))
      = [(workflows_url, w)] /\
    let first := nth_error (tasks w) 0 in
    let second := nth_error (tasks w) 1 in
    input_value first "bands" = Some (JStr "Auto") /\
    input_value first "enable_acomp" = Some (JStr "false") /\
    input_value first "enable_dra" = Some (JStr "false") /\
    input_value first "ortho_epsg" = Some (JStr "EPSG:4326") /\
    input_value first "enable_pansharpen" = Some (JStr "false") /\
    input_value first "data" = Some (JStr "s3://in/path") /\
    input_value second "destination"
      = Some (JStr ("s3://" ++ bucket ++ "/" ++ prefix ++ "/out/prefix")).
Proof.
  intros Hb Hp. eexists. split.
  - substitute_then_launch Hb Hp.
  - repeat split; reflexivity.
Qed.

Lemma launch_aop_to_s3_default_payload_witness :
  getitem example_info "bucket" = Ok (JStr "gbd-customer-data") /\
  getitem example_info "prefix"
    = Ok (JStr "58600248-2927-4523-b44b-5fec3d278c09") /\
  exists w,
    posted (trace (launch_aop_to_s3_defaults
                     (mock (mkResponse 200 id_w1_text (Some (obj [("id", JStr "w1")]))))
                     example_info "s3://in/path" "out/prefix"))
      = [(workflows_url, w)] /\
    input_value (nth_error (tasks w) 1) "destination"
      = Some (JStr "s3://gbd-customer-data/58600248-2927-4523-b44b-5fec3d278c09/out/prefix").
Proof.
  split; [reflexivity|]. split; [reflexivity|].
  destruct (launch_aop_to_s3_default_payload
              (mock (mkResponse 200 id_w1_text (Some (obj [("id", JStr "w1")]))))
              example_info "gbd-customer-data"
              "58600248-2927-4523-b44b-5fec3d278c09" eq_refl eq_refl)
    as (w & Hw & H).
  exists w. split; [exact Hw|]. apply H.
Defined.

(** C9.  Whatever the arguments, the bucket and the prefix, the workflow
    [launch_aop_to_s3] submits keeps producers before consumers; its one
    [source] reference, [AOP:data] in the second task, names the first
    task, [AOP]. *)
Theorem launch_aop_to_s3_producer_before_consumer
    (conn : session) (info : json) (bucket prefix : string)
    (input_location output_location : string)
    (bands ortho_epsg enable_pansharpen enable_acomp enable_dra : string) :
  getitem info "bucket" = Ok (JStr bucket) ->
  getitem info "prefix" = Ok (JStr prefix) ->
  exists w,
    posted (trace (launch_aop_to_s3 conn info input_location output_location
                     bands ortho_epsg enable_pansharpen enable_acomp
                     enable_dra))
      = [(workflows_url, w)] /\
    producer_before_consumer w /\
    (exists producer_task consumer_task,
        tasks w = [producer_task; consumer_task] /\
        field producer_task "name" = Some (JStr "AOP") /\
        sources producer_task = [] /\
        field consumer_task "name" = Some (JStr "StageToS3") /\
        sources consumer_task = ["AOP:data"]).
Proof.
  intros Hb Hp. eexists. split; [|split].
  - substitute_then_launch Hb Hp.
  - intros i t s Hi Hs. cbn in Hi.
    destruct i as [|[|i]]; cbn in Hi.
    + injection Hi as <-. cbn in Hs. contradiction.
    + injection Hi as <-. cbn in Hs. destruct Hs as [<-|[]].
      eexists 0%nat, _. split; [lia|split; reflexivity].
    + destruct i; discriminate.
  - do 2 eexists. repeat split.
Qed.

Lemma launch_aop_to_s3_producer_before_consumer_witness :
  getitem example_info "bucket" = Ok (JStr "gbd-customer-data") /\
  getitem example_info "prefix"
    = Ok (JStr "58600248-2927-4523-b44b-5fec3d278c09") /\
  exists w,
    posted (trace (launch_aop_to_s3
                     (mock (mkResponse 200 id_w1_text (Some (obj [("id", JStr "w1")]))))
                     example_info "s3://receiving-dgcs-tdgplatform-com/054876618060_01_003"
                     "kostas/aop" "MS" "EPSG:32633" "true" "true" "true"))
      = [(workflows_url, w)] /\
    producer_before_consumer w.
Proof.
  split; [reflexivity|]. split; [reflexivity|].
  destruct (launch_aop_to_s3_producer_before_consumer
              (mock (mkResponse 200 id_w1_text (Some (obj [("id", JStr "w1")]))))
              example_info "gbd-customer-data"
              "58600248-2927-4523-b44b-5fec3d278c09"
              "s3://receiving-dgcs-tdgplatform-com/054876618060_01_003"
              "kostas/aop" "MS" "EPSG:32633" "true" "true" "true"
              eq_refl eq_refl)
    as (w & Hw & H & _).
  exists w. split; [exact Hw | exact H].
Defined.

(** * Further properties of the class *)

(** ** [list_tasks] *)

(** [list_tasks] checks the status before it reads the body: a status in
    400..599 raises the HTTP error of that status whatever the body; on
    any other status the parsed body is returned whole, and a body that
    is not JSON raises [ValueError]. *)
Theorem list_tasks_result (conn : session) (r : response) :
  session_get conn "https://geobigdata.io/workflows/v1/tasks" = Ok r ->
  (is_error_status (status_code r) = true ->
   outcome (list_tasks conn) = Raise (HTTPError (status_code r))) /\
  (forall j, is_error_status (status_code r) = false -> parsed r = Some j ->
             outcome (list_tasks conn) = Ok j) /\
  (is_error_status (status_code r) = false -> parsed r = None ->
   outcome (list_tasks conn) = Raise ValueError).
Proof.
  intros Hget. repeat split.
  - intros Hs. run list_tasks. rewrite Hget.
    rewrite (raise_for_status_error r Hs). reflexivity.
  - intros j Hs Hj. run list_tasks. rewrite Hget.
    rewrite (raise_for_status_ok r Hs). unfold response_json. rewrite Hj.
    reflexivity.
  - intros Hs Hj. run list_tasks. rewrite Hget.
    rewrite (raise_for_status_ok r Hs). unfold response_json. rewrite Hj.
    reflexivity.
Qed.

Lemma list_tasks_result_witness :
  outcome (list_tasks (mock (mkResponse 401 "Unauthorized" None)))
    = Raise (HTTPError 401) /\
  outcome (list_tasks
             (mock (mkResponse 200 ("[" ++ quoted "AOP_Strip_Processor" ++ "]")
                      (Some (JArr [JStr "AOP_Strip_Processor"])))))
    = Ok (JArr [JStr "AOP_Strip_Processor"]) /\
  outcome (list_tasks (mock (mkResponse 200 "<html>" None))) = Raise ValueError.
Proof.
  split; [|split].
  - apply (proj1 (list_tasks_result
                    (mock (mkResponse 401 "Unauthorized" None)) _ eq_refl));
      reflexivity.
  - apply (proj1 (proj2 (list_tasks_result
                    (mock (mkResponse 200 ("[" ++ quoted "AOP_Strip_Processor" ++ "]")
                             (Some (JArr [JStr "AOP_Strip_Processor"]))))
                    _ eq_refl))); reflexivity.
  - apply (proj2 (proj2 (list_tasks_result
                    (mock (mkResponse 200 "<html>" None)) _ eq_refl)));
      reflexivity.
Defined.

(** ** The methods without a status check *)

(** [status], [events], [batch_workflow_status], [batch_workflow_cancel]
    and [launch_batch_workflow] never look at the status code: answered
    with the same body under another status, each does exactly the same. *)
Theorem status_code_ignored (py : python) (r : response) (code : Z)
    (h : string) (w : json) :
  status (mock (with_status r code)) h = status (mock r) h /\
  events (mock (with_status r code)) h = events (mock r) h /\
  batch_workflow_status (mock (with_status r code)) h
    = batch_workflow_status (mock r) h /\
  batch_workflow_cancel (mock (with_status r code)) h
    = batch_workflow_cancel (mock r) h /\
  launch_batch_workflow py (mock (with_status r code)) w
    = launch_batch_workflow py (mock r) w.
Proof. repeat split. Qed.

(** [status] succeeds exactly when the body is a JSON object with a
    [state] member, and then returns that member. *)
Theorem status_returns_state_iff (conn : session) (h : string) (r : response)
    (v : json) :
  session_get conn ("https://geobigdata.io/workflows/v1/workflows/" ++ h) = Ok r ->
  outcome (status conn h) = Ok v <->
  exists d, parsed r = Some (JObj d) /\ dict_get d "state" = Some v.
Proof.
  intros Hget.
  assert (E : outcome (status conn h) =
              match response_json r with
              | Ok j => getitem j "state"
              | Raise e => Raise e
              end).
  { run status. rewrite Hget. cbn.
    destruct (response_json r) as [j|e]; cbn; [|reflexivity].
    now destruct (getitem j "state"). }
  rewrite E. unfold response_json. split.
  - destruct (parsed r) as [j|]; [|discriminate].
    destruct j; cbn; try discriminate.
    destruct (dict_get fields "state") eqn:Hd; [|discriminate].
    intros [= <-]. now exists fields.
  - intros (d & -> & Hd). cbn. now rewrite Hd.
Qed.

Lemma status_returns_state_iff_witness :
  outcome (status (mock (mkResponse 200
                           ("{" ++ quoted "state" ++ ": " ++ quoted "running" ++ "}")
                           (Some (JObj [("state", JStr "running")])))) "w1")
    = Ok (JStr "running").
Proof.
  apply (proj2 (status_returns_state_iff
                  (mock (mkResponse 200
                           ("{" ++ quoted "state" ++ ": " ++ quoted "running" ++ "}")
                           (Some (JObj [("state", JStr "running")]))))
                  "w1" _ (JStr "running") eq_refl)).
  exists [("state", JStr "running")]. split; reflexivity.
Defined.

(** When the transport is down, the seven methods without a [try] let the
    exception through unchanged. *)
Theorem transport_exceptions_propagate (e : exn) (h : string) :
  outcome (status (failing e) h) = Raise e /\
  outcome (events (failing e) h) = Raise e /\
  outcome (cancel (failing e) h) = Raise e /\
  outcome (list_tasks (failing e)) = Raise e /\
  outcome (describe_task (failing e) h) = Raise e /\
  outcome (batch_workflow_status (failing e) h) = Raise e /\
  outcome (batch_workflow_cancel (failing e) h) = Raise e.
Proof. repeat split. Qed.

(** ** [launch], the other paths *)

(** A body without an [id] member is a [KeyError], a body that is not
    JSON is a [ValueError]; neither is swallowed. *)
Theorem launch_unusable_body (conn : session) (w : json) (r : response) :
  session_post conn workflows_url (Json w) = Ok r ->
  is_error_status (status_code r) = false ->
  (forall d, parsed r = Some (JObj d) -> dict_get d "id" = None ->
             launch conn w
               = ([Request POST workflows_url (Json w)], Raise (KeyError "id"))) /\
  (parsed r = None ->
   launch conn w = ([Request POST workflows_url (Json w)], Raise ValueError)).
Proof.
  intros Hpost Hs. split.
  - intros d Hj Hd. run launch. rewrite Hpost.
    rewrite (raise_for_status_ok r Hs). unfold response_json. rewrite Hj.
    cbn. rewrite Hd. reflexivity.
  - intros Hj. run launch. rewrite Hpost.
    rewrite (raise_for_status_ok r Hs). unfold response_json. rewrite Hj.
    reflexivity.
Qed.

Lemma launch_unusable_body_witness :
  launch (mock (mkResponse 200 "{}" (Some (JObj [])))) (obj [])
    = ([Request POST workflows_url (Json (obj []))], Raise (KeyError "id")) /\
  launch (mock (mkResponse 200 "OK" None)) (obj [])
    = ([Request POST workflows_url (Json (obj []))], Raise ValueError).
Proof.
  split.
  - apply (proj1 (launch_unusable_body
                    (mock (mkResponse 200 "{}" (Some (JObj [])))) (obj []) _
                    eq_refl eq_refl) [] eq_refl eq_refl).
  - apply (proj2 (launch_unusable_body
                    (mock (mkResponse 200 "OK" None)) (obj []) _
                    eq_refl eq_refl) eq_refl).
Defined.

(** The [except TypeError] clause also catches the subscript: when the
    body is JSON but not an object, [launch] logs the debug message and
    returns [None], on a successful status too. *)
Theorem launch_swallows_subscript_TypeError (conn : session) (w : json)
    (r : response) (j : json) (msg : string) :
  session_post conn workflows_url (Json w) = Ok r ->
  is_error_status (status_code r) = false ->
  parsed r = Some j ->
  getitem j "id" = Raise (TypeError msg) ->
  launch conn w =
    ([Request POST workflows_url (Json w); LogDebug "Workflow not launched!"],
     Ok JNull).
Proof.
  intros Hpost Hs Hj Hid. run launch. rewrite Hpost.
  rewrite (raise_for_status_ok r Hs). unfold response_json. rewrite Hj.
  rewrite Hid. reflexivity.
Qed.

Lemma launch_swallows_subscript_TypeError_witness :
  getitem (JArr [JStr "w1"]) "id"
    = Raise (TypeError "list indices must be integers or slices, not str") /\
  launch (mock (mkResponse 200 ("[" ++ quoted "w1" ++ "]")
                  (Some (JArr [JStr "w1"])))) (obj [])
    = ([Request POST workflows_url (Json (obj []));
        LogDebug "Workflow not launched!"],
       Ok JNull).
Proof.
  split; [reflexivity|].
  apply (launch_swallows_subscript_TypeError
           (mock (mkResponse 200 ("[" ++ quoted "w1" ++ "]")
                    (Some (JArr [JStr "w1"]))))
           (obj []) _ (JArr [JStr "w1"])
           "list indices must be integers or slices, not str"
           eq_refl eq_refl eq_refl eq_refl).
Defined.

(** Whatever the session does, [launch] never lets a [TypeError] out. *)
Theorem launch_never_raises_TypeError (conn : session) (w : json) :
  raises_TypeError (outcome (launch conn w)) = false.
Proof.
  run launch.
  destruct (session_post conn workflows_url (Json w)) as [r|e]; cbn.
  - unfold raise_for_status.
    destruct (is_error_status (status_code r)); cbn; [reflexivity|].
    destruct (response_json r) as [j|e] eqn:Hj; cbn.
    + destruct (getitem j "id") as [v|e]; cbn; [reflexivity|].
      destruct e; reflexivity.
    + unfold response_json in Hj. destruct (parsed r); [discriminate|].
      injection Hj as <-. reflexivity.
  - destruct e; reflexivity.
Qed.

(** Any other exception of the session's [post] goes through [launch]
    unchanged, and nothing is logged. *)
Theorem launch_propagates_other_exceptions (conn : session) (w : json)
    (e : exn) :
  session_post conn workflows_url (Json w) = Raise e ->
  is_TypeError e = false ->
  launch conn w = ([Request POST workflows_url (Json w)], Raise e).
Proof.
  intros Hpost He. run launch. rewrite Hpost. cbn.
  destruct e; try reflexivity. discriminate He.
Qed.

Lemma launch_propagates_other_exceptions_witness :
  launch (failing ConnectionError) (obj [])
    = ([Request POST workflows_url (Json (obj []))], Raise ConnectionError).
Proof.
  apply (launch_propagates_other_exceptions (failing ConnectionError) (obj [])
           ConnectionError eq_refl eq_refl).
Defined.

(** [launch] prints exactly when the response has a status in 400..599:
    then the two diagnostic lines, otherwise nothing. *)
Theorem launch_prints_only_on_error_status (conn : session) (w : json) :
  printed (trace (launch conn w)) =
    match session_post conn workflows_url (Json w) with
    | Ok r =>
        if is_error_status (status_code r)
        then ["GBDX API Status Code: " ++ str_of_int (status_code r);
              "GBDX API Response: " ++ text r]
        else []
    | Raise _ => []
    end.
Proof.
  run launch.
  destruct (session_post conn workflows_url (Json w)) as [r|e]; cbn.
  - unfold raise_for_status.
    destruct (is_error_status (status_code r)); cbn; [reflexivity|].
    destruct (response_json r) as [j|e]; cbn.
    + destruct (getitem j "id") as [v|e]; cbn; [reflexivity|].
      destruct e; reflexivity.
    + destruct e; reflexivity.
  - destruct e; reflexivity.
Qed.

(** ** The batch methods *)

(** [batch_workflow_status] returns the whole parsed body of the answer,
    not one member of it, and on any status. *)
Theorem batch_workflow_status_returns_body (conn : session) (h : string)
    (r : response) (j : json) :
  session_get conn ("https://geobigdata.io/workflows/v1/batch_workflows/" ++ h)
    = Ok r ->
  parsed r = Some j ->
  batch_workflow_status conn h =
    ([LogDebug ("Get status of batch workflow: " ++ h);
      Request GET ("https://geobigdata.io/workflows/v1/batch_workflows/" ++ h)
        NoBody],
     Ok j).
Proof.
  intros Hget Hj. run batch_workflow_status. rewrite Hget.
  unfold response_json. rewrite Hj. reflexivity.
Qed.

Lemma batch_workflow_status_returns_body_witness :
  batch_workflow_status
    (mock (mkResponse 404 ("{" ++ quoted "state" ++ ": " ++ quoted "gone" ++ "}")
             (Some (obj [("state", JStr "gone")])))) "b7" =
    ([LogDebug "Get status of batch workflow: b7";
      Request GET "https://geobigdata.io/workflows/v1/batch_workflows/b7" NoBody],
     Ok (obj [("state", JStr "gone")])).
Proof.
  apply (batch_workflow_status_returns_body
           (mock (mkResponse 404 ("{" ++ quoted "state" ++ ": " ++ quoted "gone" ++ "}")
                    (Some (obj [("state", JStr "gone")]))))
           "b7" _ _ eq_refl eq_refl).
Defined.

(** [launch_batch_workflow] returns the [batch_workflow_id] member of the
    body; a body without it is a [KeyError], which the handler does not
    catch. *)
Theorem launch_batch_workflow_result (py : python) (conn : session) (w : json)
    (r : response) (d : list (string * json)) :
  session_post conn "https://geobigdata.io/workflows/v1/batch_workflows" (Json w)
    = Ok r ->
  parsed r = Some (JObj d) ->
  launch_batch_workflow py conn w =
    ([Request POST "https://geobigdata.io/workflows/v1/batch_workflows" (Json w)],
     match dict_get d "batch_workflow_id" with
     | Some id => Ok id
     | None => Raise (KeyError "batch_workflow_id")
     end).
Proof.
  intros Hpost Hj. run launch_batch_workflow. rewrite Hpost.
  unfold response_json. rewrite Hj. cbn.
  destruct (dict_get d "batch_workflow_id"); reflexivity.
Qed.

Lemma launch_batch_workflow_result_witness :
  launch_batch_workflow Python3
    (mock (mkResponse 200
             ("{" ++ quoted "batch_workflow_id" ++ ": " ++ quoted "b7" ++ "}")
             (Some (JObj [("batch_workflow_id", JStr "b7")])))) (obj []) =
    ([Request POST "https://geobigdata.io/workflows/v1/batch_workflows"
        (Json (obj []))],
     Ok (JStr "b7")).
Proof.
  apply (launch_batch_workflow_result Python3
           (mock (mkResponse 200
                    ("{" ++ quoted "batch_workflow_id" ++ ": " ++ quoted "b7" ++ "}")
                    (Some (JObj [("batch_workflow_id", JStr "b7")]))))
           (obj []) _ [("batch_workflow_id", JStr "b7")] eq_refl eq_refl).
Defined.

(** Unlike [launch], [launch_batch_workflow] has no status check and no
    diagnostics: on an answered request it never raises an HTTP error and
    never prints. *)
Theorem launch_batch_workflow_no_status_check (py : python) (r : response)
    (w : json) :
  raises_HTTPError (outcome (launch_batch_workflow py (mock r) w)) = false /\
  printed (trace (launch_batch_workflow py (mock r) w)) = [].
Proof.
  run launch_batch_workflow. cbn. unfold response_json.
  destruct (parsed r) as [j|]; cbn; [|split; reflexivity].
  destruct j; cbn; try (destruct py; split; reflexivity).
  destruct (dict_get fields "batch_workflow_id"); split; reflexivity.
Qed.

Lemma launch_batch_workflow_py2_witness :
  launch_batch_workflow Python2 (failing (TypeError "not JSON serializable"))
    (obj []) =
    ([Request POST "https://geobigdata.io/workflows/v1/batch_workflows"
        (Json (obj []));
      LogDebug "Batch Workflow not launched, reason: not JSON serializable"],
     Ok JNull).
Proof.
  apply (launch_batch_workflow_py2 (failing (TypeError "not JSON serializable"))
           (obj []) "not JSON serializable" eq_refl).
Defined.

(** ** One round trip *)

(** Each method calls the session exactly once, whatever the session
    answers or raises: the verb, the URL and the body are those below. *)
Theorem single_round_trip (py : python) (conn : session) (h : string)
    (w : json) :
  requests (trace (launch conn w)) = [(POST, workflows_url, Json w)] /\
  requests (trace (status conn h))
    = [(GET, "https://geobigdata.io/workflows/v1/workflows/" ++ h, NoBody)] /\
  requests (trace (events conn h))
    = [(GET, "https://geobigdata.io/workflows/v1/workflows/" ++ h ++ "/events",
        NoBody)] /\
  requests (trace (cancel conn h))
    = [(POST, "https://geobigdata.io/workflows/v1/workflows/" ++ h ++ "/cancel",
        Data EmptyString)] /\
  requests (trace (list_tasks conn))
    = [(GET, "https://geobigdata.io/workflows/v1/tasks", NoBody)] /\
  requests (trace (describe_task conn h))
    = [(GET, "https://geobigdata.io/workflows/v1/tasks/" ++ h, NoBody)] /\
  requests (trace (launch_batch_workflow py conn w))
    = [(POST, "https://geobigdata.io/workflows/v1/batch_workflows", Json w)] /\
  requests (trace (batch_workflow_status conn h))
    = [(GET, "https://geobigdata.io/workflows/v1/batch_workflows/" ++ h, NoBody)] /\
  requests (trace (batch_workflow_cancel conn h))
    = [(POST, "https://geobigdata.io/workflows/v1/batch_workflows/" ++ h
              ++ "/cancel", NoBody)].
Proof.
  repeat split.
  - run launch.
    destruct (session_post conn workflows_url (Json w)) as [r|e]; cbn.
    + unfold raise_for_status.
      destruct (is_error_status (status_code r)); cbn; [reflexivity|].
      destruct (response_json r) as [j|e]; cbn.
      * destruct (getitem j "id") as [v|e]; cbn; [reflexivity|].
        destruct e; reflexivity.
      * destruct e; reflexivity.
    + destruct e; reflexivity.
  - run status. destruct (session_get conn _) as [r|e]; cbn; [|reflexivity].
    destruct (response_json r) as [j|e]; cbn; [|reflexivity].
    destruct (getitem j "state"); reflexivity.
  - run events. destruct (session_get conn _) as [r|e]; cbn; [|reflexivity].
    destruct (response_json r) as [j|e]; cbn; [|reflexivity].
    destruct (getitem j "Events"); reflexivity.
  - run cancel. destruct (session_post conn _ _) as [r|e]; cbn; [|reflexivity].
    destruct (raise_for_status r); reflexivity.
  - run list_tasks. destruct (session_get conn _) as [r|e]; cbn; [|reflexivity].
    destruct (raise_for_status r); cbn; [|reflexivity].
    destruct (response_json r); reflexivity.
  - run describe_task. destruct (session_get conn _) as [r|e]; cbn; [|reflexivity].
    destruct (raise_for_status r); cbn; [|reflexivity].
    destruct (response_json r); reflexivity.
  - run launch_batch_workflow.
    destruct (session_post conn _ _) as [r|e]; cbn.
    + destruct (response_json r) as [j|e]; cbn.
      * destruct (getitem j "batch_workflow_id") as [v|e]; cbn; [reflexivity|].
        destruct e; try reflexivity. destruct py; reflexivity.
      * destruct e; try reflexivity. destruct py; reflexivity.
    + destruct e; try reflexivity. destruct py; reflexivity.
  - run batch_workflow_status.
    destruct (session_get conn _) as [r|e]; cbn; [|reflexivity].
    destruct (response_json r); reflexivity.
  - run batch_workflow_cancel.
    destruct (session_post conn _ _) as [r|e]; cbn; [|reflexivity].
    destruct (response_json r); reflexivity.
Qed.

(** ** [launch_aop_to_s3], the other paths *)

(** Runs the substitutions of [launch_aop_to_s3] and stops before the
    debug message. *)
Ltac run_substitutions Hb Hp :=
  unfold launch_aop_to_s3_defaults, launch_aop_to_s3, set_input_value;
  rewrite Hb, Hp;
  repeat (try match goal with
              | |- context [assign ?j ?p ?k ?v] =>
                  let r := eval vm_compute in (assign j p k v) in
                  change (assign j p k v) with r
              | |- context [as_str (JStr ?s)] =>
                  change (as_str (JStr s)) with (Ok (A:=string) s)
              end;
          rewrite bind_lift_Ok; cbv beta zeta).

(** Without a [bucket] or a [prefix] in the S3 information the lookup
    error comes out as it is, and the session is never called. *)
Theorem launch_aop_to_s3_needs_bucket_and_prefix
    (conn : session) (info : json) (e : exn)
    (input_location output_location : string)
    (bands ortho_epsg enable_pansharpen enable_acomp enable_dra : string) :
  getitem info "bucket" = Raise e \/
  (exists b, getitem info "bucket" = Ok b /\ getitem info "prefix" = Raise e) ->
  launch_aop_to_s3 conn info input_location output_location
    bands ortho_epsg enable_pansharpen enable_acomp enable_dra
    = ([], Raise e).
Proof.
  intros [Hb | (b & Hb & Hp)];
    unfold launch_aop_to_s3, set_input_value; rewrite Hb; try rewrite Hp;
    repeat (try match goal with
                | |- context [assign ?j ?p ?k ?v] =>
                    let r := eval vm_compute in (assign j p k v) in
                    change (assign j p k v) with r
                end;
            rewrite bind_lift_Ok; cbv beta zeta);
    reflexivity.
Qed.

Lemma launch_aop_to_s3_needs_bucket_and_prefix_witness :
  launch_aop_to_s3 (mock (mkResponse 200 id_w1_text (Some (obj [("id", JStr "w1")]))))
    (obj [("bucket", JStr "gbd-customer-data")])
    "s3://in/path" "out/prefix" "Auto" "EPSG:4326" "false" "false" "false"
    = ([], Raise (KeyError "prefix")).
Proof.
  apply (launch_aop_to_s3_needs_bucket_and_prefix
           (mock (mkResponse 200 id_w1_text (Some (obj [("id", JStr "w1")]))))
           (obj [("bucket", JStr "gbd-customer-data")]) (KeyError "prefix")).
  right. exists (JStr "gbd-customer-data"). split; reflexivity.
Defined.

(** A bucket or a prefix that is not a string makes the [join] fail with
    a [TypeError]; it is raised outside the [try] of [launch], so it comes
    out, and the session is never called. *)
Theorem launch_aop_to_s3_rejects_non_str
    (conn : session) (info : json) (b p : json)
    (input_location output_location : string)
    (bands ortho_epsg enable_pansharpen enable_acomp enable_dra : string) :
  getitem info "bucket" = Ok b ->
  getitem info "prefix" = Ok p ->
  is_str b && is_str p = false ->
  trace (launch_aop_to_s3 conn info input_location output_location
           bands ortho_epsg enable_pansharpen enable_acomp enable_dra) = [] /\
  raises_TypeError
    (outcome (launch_aop_to_s3 conn info input_location output_location
                bands ortho_epsg enable_pansharpen enable_acomp enable_dra))
    = true.
Proof.
  intros Hb Hp Hs.
  unfold launch_aop_to_s3, set_input_value; rewrite Hb, Hp.
  repeat (try match goal with
              | |- context [assign ?j ?q ?k ?v] =>
                  let r := eval vm_compute in (assign j q k v) in
                  change (assign j q k v) with r
              end;
          rewrite bind_lift_Ok; cbv beta zeta).
  destruct b; try (split; reflexivity);
    destruct p; try (split; reflexivity).
  discriminate Hs.
Qed.

Lemma launch_aop_to_s3_rejects_non_str_witness :
  let info := obj [("bucket", JNull); ("prefix", JStr "p")] in
  let conn := mock (mkResponse 200 id_w1_text (Some (obj [("id", JStr "w1")]))) in
  trace (launch_aop_to_s3 conn info "s3://in/path" "out/prefix"
           "Auto" "EPSG:4326" "false" "false" "false") = [] /\
  raises_TypeError
    (outcome (launch_aop_to_s3 conn info "s3://in/path" "out/prefix"
                "Auto" "EPSG:4326" "false" "false" "false")) = true.
Proof.
  apply (launch_aop_to_s3_rejects_non_str
           (mock (mkResponse 200 id_w1_text (Some (obj [("id", JStr "w1")]))))
           (obj [("bucket", JNull); ("prefix", JStr "p")]) JNull (JStr "p")
           "s3://in/path" "out/prefix" "Auto" "EPSG:4326" "false" "false" "false"
           eq_refl eq_refl eq_refl).
Defined.

(** The positions the code writes to are those of the inputs it means:
    for all arguments, each argument ends up as the value of the input of
    the same name, and the output location, joined to bucket and prefix,
    as the destination. *)
Theorem launch_aop_to_s3_substitutes_arguments
    (conn : session) (info : json) (bucket prefix : string)
    (input_location output_location : string)
    (bands ortho_epsg enable_pansharpen enable_acomp enable_dra : string) :
  getitem info "bucket" = Ok (JStr bucket) ->
  getitem info "prefix" = Ok (JStr prefix) ->
  exists w,
    posted (trace (launch_aop_to_s3 conn info input_location output_location
                     bands ortho_epsg enable_pansharpen enable_acomp
                     enable_dra))
      = [(workflows_url, w)] /\
    let first := nth_error (tasks w) 0 in
    let second := nth_error (tasks w) 1 in
    input_value first "data" = Some (JStr input_location) /\
    input_value first "bands" = Some (JStr bands) /\
    input_value first "enable_acomp" = Some (JStr enable_acomp) /\
    input_value first "enable_dra" = Some (JStr enable_dra) /\
    input_value first "ortho_epsg" = Some (JStr ortho_epsg) /\
    input_value first "enable_pansharpen" = Some (JStr enable_pansharpen) /\
    input_value second "destination"
      = Some (JStr ("s3://" ++ bucket ++ "/" ++ prefix ++ "/" ++ output_location)) /\
    input_value second "data" = None.
Proof.
  intros Hb Hp. eexists. split.
  - substitute_then_launch Hb Hp.
  - repeat split; reflexivity.
Qed.

Lemma launch_aop_to_s3_substitutes_arguments_witness :
  exists w,
    posted (trace (launch_aop_to_s3
                     (mock (mkResponse 200 id_w1_text (Some (obj [("id", JStr "w1")]))))
                     example_info
                     "s3://receiving-dgcs-tdgplatform-com/054876618060_01_003"
                     "kostas/aop" "MS" "EPSG:32633" "true" "false" "true"))
      = [(workflows_url, w)] /\
    input_value (nth_error (tasks w) 0) "enable_pansharpen" = Some (JStr "true") /\
    input_value (nth_error (tasks w) 0) "enable_acomp" = Some (JStr "false") /\
    input_value (nth_error (tasks w) 0) "enable_dra" = Some (JStr "true").
Proof.
  destruct (launch_aop_to_s3_substitutes_arguments
              (mock (mkResponse 200 id_w1_text (Some (obj [("id", JStr "w1")]))))
              example_info "gbd-customer-data"
              "58600248-2927-4523-b44b-5fec3d278c09"
              "s3://receiving-dgcs-tdgplatform-com/054876618060_01_003"
              "kostas/aop" "MS" "EPSG:32633" "true" "false" "true"
              eq_refl eq_refl)
    as (w & Hw & _ & _ & Ha & Hd & _ & Hpan & _).
  exists w. repeat split; assumption.
Defined.

(** The substitutions touch the seven values and nothing else: with the
    values blanked, what is submitted is the template, for all
    arguments. *)
Theorem launch_aop_to_s3_changes_values_only
    (conn : session) (info : json) (bucket prefix : string)
    (input_location output_location : string)
    (bands ortho_epsg enable_pansharpen enable_acomp enable_dra : string) :
  getitem info "bucket" = Ok (JStr bucket) ->
  getitem info "prefix" = Ok (JStr prefix) ->
  exists w,
    posted (trace (launch_aop_to_s3 conn info input_location output_location
                     bands ortho_epsg enable_pansharpen enable_acomp
                     enable_dra))
      = [(workflows_url, w)] /\
    erase_values w = erase_values aop_to_s3_template.
Proof.
  intros Hb Hp. eexists. split.
  - substitute_then_launch Hb Hp.
  - reflexivity.
Qed.

Lemma launch_aop_to_s3_changes_values_only_witness :
  exists w,
    posted (trace (launch_aop_to_s3
                     (mock (mkResponse 200 id_w1_text (Some (obj [("id", JStr "w1")]))))
                     example_info "s3://in/path" "out/prefix"
                     "PAN" "EPSG:3857" "false" "true" "false"))
      = [(workflows_url, w)] /\
    erase_values w = erase_values aop_to_s3_template.
Proof.
  apply (launch_aop_to_s3_changes_values_only
           (mock (mkResponse 200 id_w1_text (Some (obj [("id", JStr "w1")]))))
           example_info "gbd-customer-data"
           "58600248-2927-4523-b44b-5fec3d278c09"
           "s3://in/path" "out/prefix" "PAN" "EPSG:3857" "false" "true" "false"
           eq_refl eq_refl).
Defined.

Lemma debug_then_launch (conn : session) (msg : string) (w : json) :
  (debug msg;; workflow_id <- launch conn w;; ret workflow_id)
  = (LogDebug msg :: trace (launch conn w), outcome (launch conn w)).
Proof.
  unfold bind at 1. cbn [debug emit].
  destruct (launch conn w) as [t [a|e]]; cbn; rewrite ?app_nil_r; reflexivity.
Qed.

(** After the debug message, [launch_aop_to_s3] is [launch] on the
    workflow it built: same calls, same diagnostics, same result, be it an
    identifier, [None] or an HTTP error. *)
Theorem launch_aop_to_s3_delegates_to_launch
    (conn : session) (info : json) (bucket prefix : string)
    (input_location output_location : string)
    (bands ortho_epsg enable_pansharpen enable_acomp enable_dra : string) :
  getitem info "bucket" = Ok (JStr bucket) ->
  getitem info "prefix" = Ok (JStr prefix) ->
  exists w,
    launch_aop_to_s3 conn info input_location output_location
      bands ortho_epsg enable_pansharpen enable_acomp enable_dra
    = (LogDebug "Launch workflow" :: trace (launch conn w),
       outcome (launch conn w)).
Proof.
  intros Hb Hp. eexists. run_substitutions Hb Hp.
  apply debug_then_launch.
Qed.

Lemma launch_aop_to_s3_delegates_to_launch_witness :
  outcome (launch_aop_to_s3 (mock (mkResponse 503 "busy" None)) example_info
             "s3://in/path" "out/prefix" "Auto" "EPSG:4326" "false" "false" "false")
    = Raise (HTTPError 503) /\
  printed (trace (launch_aop_to_s3 (mock (mkResponse 503 "busy" None)) example_info
                    "s3://in/path" "out/prefix" "Auto" "EPSG:4326" "false" "false"
                    "false"))
    = ["GBDX API Status Code: 503"; "GBDX API Response: busy"].
Proof.
  destruct (launch_aop_to_s3_delegates_to_launch
              (mock (mkResponse 503 "busy" None)) example_info
              "gbd-customer-data" "58600248-2927-4523-b44b-5fec3d278c09"
              "s3://in/path" "out/prefix" "Auto" "EPSG:4326" "false" "false" "false"
              eq_refl eq_refl) as [w Hw].
  rewrite Hw. split; reflexivity.
Defined.
